(** * BollingerBandsPolicy (bounty-2/policy.py): a shallow embedding

    The policy keeps a bounded window of prices, two unbounded histories
    (price and liquidity) and three diagnostic logs.  Each call of [predict]
    updates them from the observation, computes Bollinger bands and a rolling
    correlation, and returns zero, one or two trade intents.

    Numbers.  Python's [float] is IEEE binary64; the policy only adds,
    subtracts, multiplies, divides, takes square roots and compares with [<].
    Those few operations are the interface [Arith]; every definition of the
    policy is written once over it.  Two instances are given: binary64
    (primitive floats, which evaluate) and the real numbers (for the facts
    that are about means and deviations as mathematical quantities).
    Python's [int] is [Z]; [Decimal] is read as an exact rational [Q] and
    compared with [==], as Python's [Decimal.__eq__] compares values. *)

From Stdlib Require Import ZArith List String Bool Lia QArith.
From Stdlib Require Import Floats.PrimFloat Floats.SpecFloat Floats.FloatOps.
From Stdlib Require Import Reals Lra.
Import ListNotations.

Local Open Scope Z_scope.

(** ** The arithmetic the policy uses *)

Class Arith (F : Type) := {
  of_int : Z -> F;          (* float(n), np.array(..., dtype=float) *)
  add : F -> F -> F;
  sub : F -> F -> F;
  mul : F -> F -> F;
  div : F -> F -> F;
  sqrt : F -> F;
  ltb : F -> F -> bool      (* x < y; x > y is  ltb y x *)
}.

(** binary64: what CPython and numpy compute with. *)
Definition float_of_Z (z : Z) : float :=
  SF2Prim (binary_normalize prec emax z 0 false).

#[export] Instance float_arith : Arith float := {
  of_int := float_of_Z;
  add := PrimFloat.add;
  sub := PrimFloat.sub;
  mul := PrimFloat.mul;
  div := PrimFloat.div;
  sqrt := PrimFloat.sqrt;
  ltb := PrimFloat.ltb
}.



(** ** Python and numpy helpers *)

Section Helpers.
Context {A : Type}.

(** [len(l)] as a Python int. *)
Definition len (l : list A) : Z := Z.of_nat (List.length l).

(** [l[i:]] for any int [i]: a negative [i] counts from the end, and both
    ends are clamped. *)
Definition py_slice_from (i : Z) (l : list A) : list A :=
  if i <? 0 then skipn (Z.to_nat (Z.max 0 (len l + i))) l
  else skipn (Z.to_nat i) l.

(** [deque(maxlen=w).append(x)]: append on the right; when the deque was
    full the leftmost element is discarded. *)
Definition deque_append (w : Z) (x : A) (d : list A) : list A :=
  let d' := d ++ [x] in
  if w <? len d' then tl d' else d'.

(** The last [n] elements of [l] (all of [l] when it is shorter). *)
Definition lastn (n : nat) (l : list A) : list A :=
  skipn (List.length l - n) l.
End Helpers.

Section Numpy.
Context {F : Type} `{Arith F}.

(** [np.mean(a)]: the sum of the elements divided by their number. *)
Definition np_sum (a : list F) : F := fold_left add a (of_int 0).
Definition np_mean (a : list F) : F := div (np_sum a) (of_int (len a)).

(** [np.std(a)] (ddof = 0): square root of the mean of the squared
    deviations from the mean. *)
Definition np_std (a : list F) : F :=
  let m := np_mean a in
  sqrt (np_mean (map (fun x => mul (sub x m) (sub x m)) a)).

(** [np.clip(c, -1, 1)]. *)
Definition np_clip1 (c : F) : F :=
  if ltb c (of_int (-1)) then of_int (-1)
  else if ltb (of_int 1) c then of_int 1 else c.

(** [np.corrcoef(x, y)[0, 1]]: the covariance (ddof = 1) divided by the two
    standard deviations, clipped to [-1, 1]. *)
Definition np_dot (x y : list F) : F :=
  np_sum (map (fun p => mul (fst p) (snd p)) (combine x y)).
Definition np_cov (x y : list F) : F :=
  let xm := map (fun v => sub v (np_mean x)) x in
  let ym := map (fun v => sub v (np_mean y)) y in
  mul (np_dot xm ym) (div (of_int 1) (of_int (len x - 1))).
Definition np_corrcoef (x y : list F) : F :=
  np_clip1 (div (div (np_cov x y) (sqrt (np_cov x x))) (sqrt (np_cov y y))).
End Numpy.

(** ** The data model *)

(** [Decimal]: exact decimal quantities, read as rationals. *)
Definition Decimal := Q.
Definition Decimal_0 : Decimal := 0%Q.          (* Decimal(0) *)
Definition Decimal_0_3 : Decimal := (3 # 10)%Q. (* Decimal("0.3") *)

(** The agent as [predict] sees it: its current holding of each token. *)
Record BaseAgent := {
  agent_name : string;
  quantity : string -> Decimal
}.

(** [UniswapV3Trade(agent=, pool=, quantities=)]. *)
Record UniswapV3Trade := {
  trade_agent : string;
  trade_pool : string;
  quantities : Decimal * Decimal
}.

Section Policy.
Context {F : Type} `{Arith F}.

(** What [predict] reads from a [UniswapV3Observation]. *)
Record UniswapV3Observation := {
  pools : list string;
  pool_tokens : string -> string * string;
  (* float(obs.price(token=, unit=, pool=)) *)
  price : string -> string -> string -> F;
  obs_liquidity : string -> Z
}.

(** The fields [__init__] sets. *)
Record BollingerBandsPolicy := {
  agent : string;
  pool : string;
  window : Z;
  std_dev_multiplier : F;
  corr_window : Z;
  direction : Z;               (* 0 both, -1 short only, 1 long only *)
  price_window : list F;       (* deque(maxlen=window) *)
  price_hist : list F;
  liquidity : list Z;
  upper_band : list F;
  lower_band : list F;
  correlation_hist : list F
}.

(** [__init__]; [deque(maxlen=window)] raises ValueError when [window] is
    negative. *)
Definition init (agent : string) (pool : string) (window : Z)
    (std_dev_multiplier : F) (corr_window : Z) (direction : Z)
    : option BollingerBandsPolicy :=
  if window <? 0 then None
  else Some {| agent := agent; pool := pool; window := window;
               std_dev_multiplier := std_dev_multiplier;
               corr_window := corr_window; direction := direction;
               price_window := []; price_hist := []; liquidity := [];
               upper_band := []; lower_band := [];
               correlation_hist := [] |}.

(** Field updates ([self.x.append(v)]). *)
Definition price_window_append (x : F) (self : BollingerBandsPolicy) :=
  {| agent := agent self; pool := pool self; window := window self;
     std_dev_multiplier := std_dev_multiplier self;
     corr_window := corr_window self; direction := direction self;
     price_window := deque_append (window self) x (price_window self);
     price_hist := price_hist self; liquidity := liquidity self;
     upper_band := upper_band self; lower_band := lower_band self;
     correlation_hist := correlation_hist self |}.

Definition price_hist_append (x : F) (self : BollingerBandsPolicy) :=
  {| agent := agent self; pool := pool self; window := window self;
     std_dev_multiplier := std_dev_multiplier self;
     corr_window := corr_window self; direction := direction self;
     price_window := price_window self;
     price_hist := price_hist self ++ [x]; liquidity := liquidity self;
     upper_band := upper_band self; lower_band := lower_band self;
     correlation_hist := correlation_hist self |}.

Definition liquidity_append (x : Z) (self : BollingerBandsPolicy) :=
  {| agent := agent self; pool := pool self; window := window self;
     std_dev_multiplier := std_dev_multiplier self;
     corr_window := corr_window self; direction := direction self;
     price_window := price_window self;
     price_hist := price_hist self; liquidity := liquidity self ++ [x];
     upper_band := upper_band self; lower_band := lower_band self;
     correlation_hist := correlation_hist self |}.

Definition bands_append (upper lower : F) (self : BollingerBandsPolicy) :=
  {| agent := agent self; pool := pool self; window := window self;
     std_dev_multiplier := std_dev_multiplier self;
     corr_window := corr_window self; direction := direction self;
     price_window := price_window self;
     price_hist := price_hist self; liquidity := liquidity self;
     upper_band := upper_band self ++ [upper];
     lower_band := lower_band self ++ [lower];
     correlation_hist := correlation_hist self |}.

Definition correlation_hist_append (c : F) (self : BollingerBandsPolicy) :=
  {| agent := agent self; pool := pool self; window := window self;
     std_dev_multiplier := std_dev_multiplier self;
     corr_window := corr_window self; direction := direction self;
     price_window := price_window self;
     price_hist := price_hist self; liquidity := liquidity self;
     upper_band := upper_band self; lower_band := lower_band self;
     correlation_hist := correlation_hist self ++ [c] |}.

(** ** The methods *)

Definition calculate_sma (self : BollingerBandsPolicy) : F :=
  np_mean (price_window self).

(** Returns [(lower_band, middle_band, upper_band)] and the updated policy. *)
Definition calculate_bollinger_bands (self : BollingerBandsPolicy)
    : (F * F * F) * BollingerBandsPolicy :=
  if len (price_window self) <? window self then
    ((of_int 0, of_int 0, of_int 0), self)
  else
    let middle_band := calculate_sma self in
    let std_dev := np_std (price_window self) in
    let upper_band := add middle_band (mul std_dev (std_dev_multiplier self)) in
    let lower_band := sub middle_band (mul std_dev (std_dev_multiplier self)) in
    let self := bands_append upper_band lower_band self in
    ((lower_band, middle_band, upper_band), self).

Definition calculate_correlation (self : BollingerBandsPolicy)
    : F * BollingerBandsPolicy :=
  if (corr_window self <=? len (price_hist self))
     && (corr_window self <=? len (liquidity self)) then
    let prices := py_slice_from (- corr_window self) (price_hist self) in
    let liquidity :=
      map of_int (py_slice_from (- corr_window self) (liquidity self)) in
    (* prices.shape == liquidity.shape and prices.ndim == 1 *)
    if (List.length prices =? List.length liquidity)%nat then
      let corr := np_corrcoef prices liquidity in
      (corr, correlation_hist_append corr self)
    else (of_int 0, self)
  else (of_int 0, self).

(** The literal [-0.5]. *)
Definition minus_half : F := div (of_int (-1)) (of_int 2).

(** [predict]: the trade intents, the updated policy, and the signals it
    hands to [obs.add_signal], in order.  [None] is the IndexError of
    [obs.pools[0]] on an empty pool list.  [ag] is the object [self.agent]
    refers to, as it stands when the call is made. *)
Definition predict (self : BollingerBandsPolicy) (ag : BaseAgent)
    (obs : UniswapV3Observation)
    : option (list UniswapV3Trade * BollingerBandsPolicy * list (string * F)) :=
  match pools obs with
  | [] => None
  | pool0 :: _ =>
    let tokens := pool_tokens obs (pool self) in
    let price0 := price obs (fst tokens) (snd tokens) (pool self) in
    let self := price_window_append price0 self in
    let self := price_hist_append price0 self in
    let self := liquidity_append (obs_liquidity obs pool0) self in
    let bands := calculate_bollinger_bands self in
    let self := snd bands in
    let corr := calculate_correlation self in
    let self := snd corr in
    let signals := [("Correlation"%string, fst corr)] in
    (* the same statements once more (lines 91-103) *)
    match pools obs with
    | [] => None
    | pool0 :: _ =>
      let tokens := pool_tokens obs (pool self) in
      let price0 := price obs (fst tokens) (snd tokens) (pool self) in
      let self := price_window_append price0 self in
      let self := price_hist_append price0 self in
      let self := liquidity_append (obs_liquidity obs pool0) self in
      let bands := calculate_bollinger_bands self in
      let lower_band := fst (fst (fst bands)) in
      let upper_band := snd (fst bands) in
      let self := snd bands in
      let corr := calculate_correlation self in
      let correlation := fst corr in
      let self := snd corr in
      let signals := signals ++ [("Correlation"%string, correlation)] in
      if len (price_window self) <? window self then
        Some ([], self, signals)
      else
        let actions := [] in
        let actions :=
          if (0 <=? direction self) && ltb price0 lower_band
             && ltb correlation minus_half then
            let y_quantity := (quantity ag (snd tokens) * Decimal_0_3)%Q in
            actions ++ [{| trade_agent := agent self;
                           trade_pool := pool self;
                           quantities := (Decimal_0, y_quantity) |}]
          else actions in
        let actions :=
          if (direction self <=? 0) && ltb upper_band price0
             && ltb correlation minus_half then
            let x_quantity := (quantity ag (fst tokens) * Decimal_0_3)%Q in
            actions ++ [{| trade_agent := agent self;
                           trade_pool := pool self;
                           quantities := (x_quantity, Decimal_0) |}]
          else actions in
        Some (actions, self, signals)
    end
  end.
End Policy.

Arguments UniswapV3Observation : clear implicits.
Arguments BollingerBandsPolicy : clear implicits.

(** ** [predict] read as two update blocks and a decision

    The body of [predict] runs the same statements twice (lines 77-89 and
    91-103) and then decides.  The definitions below name the pieces, and
    [predict_blocks] proves that [predict] is their composition. *)

Section Blocks.
Context {F : Type} `{Arith F}.

(** The price [predict] reads: token0 in units of token1, configured pool. *)
Definition obs_price (self : BollingerBandsPolicy F)
    (obs : UniswapV3Observation F) : F :=
  let tokens := pool_tokens obs (pool self) in
  price obs (fst tokens) (snd tokens) (pool self).

(** The three appends of one block (lines 82-84, and again 96-98). *)
Definition update (self : BollingerBandsPolicy F)
    (obs : UniswapV3Observation F) (pool0 : string) : BollingerBandsPolicy F :=
  liquidity_append (obs_liquidity obs pool0)
    (price_hist_append (obs_price self obs)
       (price_window_append (obs_price self obs) self)).

(** The bands and the correlation one block computes, and the state it
    leaves. *)
Definition block_bands (self : BollingerBandsPolicy F)
    (obs : UniswapV3Observation F) (pool0 : string) : F * F * F :=
  fst (calculate_bollinger_bands (update self obs pool0)).

Definition block_correlation (self : BollingerBandsPolicy F)
    (obs : UniswapV3Observation F) (pool0 : string) : F :=
  fst (calculate_correlation
         (snd (calculate_bollinger_bands (update self obs pool0)))).

Definition block (self : BollingerBandsPolicy F)
    (obs : UniswapV3Observation F) (pool0 : string) : BollingerBandsPolicy F :=
  snd (calculate_correlation
         (snd (calculate_bollinger_bands (update self obs pool0)))).

(** The two entry rules (lines 112 and 123). *)
Definition long_signal (self : BollingerBandsPolicy F)
    (price0 lower correlation : F) : bool :=
  (0 <=? direction self) && ltb price0 lower && ltb correlation minus_half.

Definition short_signal (self : BollingerBandsPolicy F)
    (price0 upper correlation : F) : bool :=
  (direction self <=? 0) && ltb upper price0 && ltb correlation minus_half.

Definition buy_intent (self : BollingerBandsPolicy F) (ag : BaseAgent)
    (tokens : string * string) : UniswapV3Trade :=
  {| trade_agent := agent self; trade_pool := pool self;
     quantities :=
       (Decimal_0, (quantity ag (snd tokens) * Decimal_0_3)%Q) |}.

Definition sell_intent (self : BollingerBandsPolicy F) (ag : BaseAgent)
    (tokens : string * string) : UniswapV3Trade :=
  {| trade_agent := agent self; trade_pool := pool self;
     quantities :=
       ((quantity ag (fst tokens) * Decimal_0_3)%Q, Decimal_0) |}.

(** The rules applied in order to the action list (lines 109-133). *)
Definition entries (s2 : BollingerBandsPolicy F) (ag : BaseAgent)
    (tokens : string * string) (price0 lower upper correlation : F)
    : list UniswapV3Trade :=
  let actions := [] in
  let actions :=
    if long_signal s2 price0 lower correlation
    then actions ++ [buy_intent s2 ag tokens] else actions in
  let actions :=
    if short_signal s2 price0 upper correlation
    then actions ++ [sell_intent s2 ag tokens] else actions in
  actions.

(** What [predict] returns from the state [s1] the first block left. *)
Definition decide (s1 : BollingerBandsPolicy F) (ag : BaseAgent)
    (obs : UniswapV3Observation F) (pool0 : string) : list UniswapV3Trade :=
  let s2 := block s1 obs pool0 in
  let bands := block_bands s1 obs pool0 in
  let correlation := block_correlation s1 obs pool0 in
  if len (price_window s2) <? window s2 then []
  else entries s2 ag (pool_tokens obs (pool s1)) (obs_price s1 obs)
         (fst (fst bands)) (snd bands) correlation.

(** A run of the policy: one agent state and one observation per step;
    the intents of every step, oldest first, and the final policy. *)
Fixpoint run (self : BollingerBandsPolicy F)
    (steps : list (BaseAgent * UniswapV3Observation F))
    : option (list (list UniswapV3Trade) * BollingerBandsPolicy F) :=
  match steps with
  | [] => Some ([], self)
  | (ag, obs) :: steps =>
    match predict self ag obs with
    | None => None
    | Some (actions, self, _) =>
      match run self steps with
      | None => None
      | Some (out, self) => Some (actions :: out, self)
      end
    end
  end.

(** The policies a simulation can hold: a constructed one, stepped by
    [predict] any number of times. *)
Inductive reachable : BollingerBandsPolicy F -> Prop :=
| reachable_init : forall a p w k cw d self,
    init a p w k cw d = Some self -> reachable self
| reachable_predict : forall self ag obs actions self' signals,
    reachable self ->
    predict self ag obs = Some (actions, self', signals) ->
    reachable self'.

(** What holds of every policy a simulation can hold. *)
Definition well_formed (self : BollingerBandsPolicy F) : Prop :=
  0 <= window self /\
  len (price_window self) = Z.min (len (price_hist self)) (window self) /\
  len (price_hist self) = len (liquidity self).
End Blocks.


(** ** Concrete simulations in binary64

    The policy of run.py (lines 53-55): window 20, multiplier 1.5,
    correlation window 10, long only, on the pool USDC/WETH-0.05; the agent
    starts with 10000 USDC and 1 WETH (run.py line 35). *)

Definition usdc_weth : string := "USDC/WETH-0.05".

Definition observation (p l : Z) : UniswapV3Observation float :=
  {| pools := [usdc_weth];
     pool_tokens := fun _ => ("USDC", "WETH")%string;
     price := fun _ _ _ => of_int p;
     obs_liquidity := fun _ => l |}.

Definition bb_agent : BaseAgent :=
  {| agent_name := "BB_Agent";
     quantity := fun token =>
       if String.eqb token "USDC" then 10000%Q
       else if String.eqb token "WETH" then 1%Q else 0%Q |}.


Definition configured (window : Z) (k : float) (corr_window direction : Z)
    (pw ph : list float) (liq : list Z) (ub lb ch : list float)
    : BollingerBandsPolicy float :=
  {| agent := "BB_Agent"; pool := usdc_weth; window := window;
     std_dev_multiplier := k; corr_window := corr_window;
     direction := direction; price_window := pw; price_hist := ph;
     liquidity := liq; upper_band := ub; lower_band := lb;
     correlation_hist := ch |}.

(** Freshly constructed, as run.py does. *)
Definition backtest_policy : BollingerBandsPolicy float :=
  configured 20 1.5%float 10 1 [] [] [] [] [] [].

(** After nine quiet steps (price 100, liquidity 5): eighteen prices in the
    window.  The correlation of two constant series is 0/0. *)
Definition warm_policy : BollingerBandsPolicy float :=
  configured 20 1.5%float 10 1
    (repeat 100%float 18) (repeat 100%float 18) (repeat 5 18) [] []
    (repeat nan 9).

Definition quiet_steps (ag : BaseAgent)
    : list (BaseAgent * UniswapV3Observation float) :=
  repeat (ag, observation 100 5) 9.

(** The tenth observation: the price falls to 40 while liquidity rises to 9. *)
Definition drop : UniswapV3Observation float := observation 40 9.



(** A policy whose correlation window is 0, after two steps. *)
Definition zero_corr_policy : BollingerBandsPolicy float :=
  configured 4 2%float 0 0 [] [] [] [] [] [].

Definition zero_corr_after_two : BollingerBandsPolicy float :=
  configured 4 2%float 0 0
    [1%float; 1%float; 3%float; 3%float] [1%float; 1%float; 3%float; 3%float]
    [1; 1; 0; 0] [4%float] [0%float]
    [nan; nan; (-0x1.ffffffffffffep-1)%float; (-1)%float].

(** Two pools listed, the configured one second. *)
Definition two_pools {F : Type} `{Arith F} : UniswapV3Observation F :=
  {| pools := ["DAI/USDC-0.01"; usdc_weth]%string;
     pool_tokens := fun _ => ("USDC", "WETH")%string;
     price := fun _ _ _ => of_int 100;
     obs_liquidity := fun p => if String.eqb p usdc_weth then 5 else 7 |}.

Definition fresh {F : Type} `{Arith F} : BollingerBandsPolicy F :=
  {| agent := "BB_Agent"; pool := usdc_weth; window := 20;
     std_dev_multiplier := of_int 2; corr_window := 20; direction := 0;
     price_window := []; price_hist := []; liquidity := [];
     upper_band := []; lower_band := []; correlation_hist := [] |}.


(** ** The statistics in the spec's words, over the real numbers *)





(** ** Basic facts *)

Section BlockFacts.
Context {F : Type} `{Arith F}.
Implicit Types (self : BollingerBandsPolicy F) (obs : UniswapV3Observation F).

(** The configuration and the histories that [calculate_bollinger_bands]
    leaves alone. *)
Lemma calculate_bollinger_bands_frame self :
  let self' := snd (calculate_bollinger_bands self) in
  agent self' = agent self /\ pool self' = pool self /\
  window self' = window self /\
  std_dev_multiplier self' = std_dev_multiplier self /\
  corr_window self' = corr_window self /\
  direction self' = direction self /\
  price_window self' = price_window self /\
  price_hist self' = price_hist self /\
  liquidity self' = liquidity self /\
  correlation_hist self' = correlation_hist self.
Proof.
  unfold calculate_bollinger_bands.
  destruct (len (price_window self) <? window self); cbn; repeat split.
Qed.

Lemma calculate_correlation_frame self :
  let self' := snd (calculate_correlation self) in
  agent self' = agent self /\ pool self' = pool self /\
  window self' = window self /\
  std_dev_multiplier self' = std_dev_multiplier self /\
  corr_window self' = corr_window self /\
  direction self' = direction self /\
  price_window self' = price_window self /\
  price_hist self' = price_hist self /\
  liquidity self' = liquidity self /\
  upper_band self' = upper_band self /\
  lower_band self' = lower_band self.
Proof.
  unfold calculate_correlation.
  destruct (_ && _); [ destruct (_ =? _)%nat | ]; cbn; repeat split.
Qed.

(** What one block does to the fields the decision reads. *)
Lemma block_fields self obs pool0 :
  let self' := block self obs pool0 in
  agent self' = agent self /\ pool self' = pool self /\
  window self' = window self /\
  std_dev_multiplier self' = std_dev_multiplier self /\
  corr_window self' = corr_window self /\
  direction self' = direction self /\
  price_window self'
    = deque_append (window self) (obs_price self obs) (price_window self) /\
  price_hist self' = price_hist self ++ [obs_price self obs] /\
  liquidity self' = liquidity self ++ [obs_liquidity obs pool0].
Proof.
  unfold block.
  set (u := update self obs pool0).
  destruct (calculate_bollinger_bands_frame u)
    as (a1 & a2 & a3 & a4 & a5 & a6 & a7 & a8 & a9 & _).
  destruct (calculate_correlation_frame (snd (calculate_bollinger_bands u)))
    as (b1 & b2 & b3 & b4 & b5 & b6 & b7 & b8 & b9 & _).
  cbn zeta in *.
  rewrite b1, b2, b3, b4, b5, b6, b7, b8, b9.
  rewrite a1, a2, a3, a4, a5, a6, a7, a8, a9.
  subst u; cbn. repeat split.
Qed.

(** [predict] is two blocks and the decision; it fails only on an empty
    pool list. *)
Lemma predict_blocks self ag obs pool0 rest :
  pools obs = pool0 :: rest ->
  predict self ag obs
  = Some (decide (block self obs pool0) ag obs pool0,
          block (block self obs pool0) obs pool0,
          [("Correlation"%string, block_correlation self obs pool0);
           ("Correlation"%string,
            block_correlation (block self obs pool0) obs pool0)]).
Proof.
  intros Hp. unfold predict. rewrite Hp.
  unfold decide, entries, long_signal, short_signal, buy_intent, sell_intent,
    block, block_correlation, block_bands, update, obs_price.
  cbv zeta.
  match goal with |- (if ?c then _ else _) = _ => destruct c end;
    reflexivity.
Qed.

Lemma predict_empty_pools self ag obs :
  pools obs = [] -> predict self ag obs = None.
Proof. intros Hp. unfold predict. now rewrite Hp. Qed.
End BlockFacts.

(** ** The bounded window *)

Section Deque.
Context {A : Type}.

Lemma len_app_one (l : list A) (x : A) : len (l ++ [x]) = len l + 1.
Proof. unfold len. rewrite length_app. cbn. lia. Qed.

Lemma len_nonneg (l : list A) : 0 <= len l.
Proof. unfold len. lia. Qed.

(** A full deque keeps its length, any other grows by one. *)
Lemma len_deque_append (w : Z) (x : A) (d : list A) :
  len (deque_append w x d) = if w <? len d + 1 then len d else len d + 1.
Proof.
  unfold deque_append. cbv zeta. rewrite len_app_one.
  destruct (w <? len d + 1); [ | apply len_app_one ].
  destruct d as [ | a d ]; cbn [app tl]; [ reflexivity | ].
  rewrite len_app_one. unfold len. cbn [List.length]. lia.
Qed.

(** The window holds as many prices as were appended, up to its capacity. *)
Lemma len_deque_append_min (w : Z) (x : A) (d : list A) (n : Z) :
  0 <= w -> len d = Z.min n w ->
  len (deque_append w x d) = Z.min (n + 1) w.
Proof.
  intros Hw Hd. rewrite len_deque_append.
  destruct (Z.ltb_spec w (len d + 1)); lia.
Qed.
End Deque.


(** ** Invariants of the policy state *)

Section Invariants.
Context {F : Type} `{Arith F}.
Implicit Types (self : BollingerBandsPolicy F) (obs : UniswapV3Observation F).


Lemma init_well_formed a p w k cw d self :
  init a p w k cw d = Some self -> well_formed self.
Proof.
  unfold init. destruct (Z.ltb_spec w 0); [ discriminate | ].
  intros [= <-]. unfold well_formed, len. cbn. lia.
Qed.

Lemma block_well_formed self obs pool0 :
  well_formed self -> well_formed (block self obs pool0).
Proof.
  intros (Hw & Hpw & Hl).
  destruct (block_fields self obs pool0)
    as (_ & _ & Ew & _ & _ & _ & Epw & Eph & El).
  cbv zeta in *. unfold well_formed.
  rewrite Ew, Epw, Eph, El, !len_app_one.
  split; [ exact Hw | split; [ | lia ] ].
  now apply len_deque_append_min.
Qed.

Lemma predict_well_formed self ag obs actions self' signals :
  well_formed self ->
  predict self ag obs = Some (actions, self', signals) ->
  well_formed self'.
Proof.
  intros Hwf Hp. destruct (pools obs) as [ | pool0 rest ] eqn:Hpools.
  - rewrite (predict_empty_pools _ _ _ Hpools) in Hp. discriminate.
  - rewrite (predict_blocks _ _ _ _ _ Hpools) in Hp.
    injection Hp as _ <- _. now do 2 apply block_well_formed.
Qed.

Lemma reachable_well_formed self : reachable self -> well_formed self.
Proof.
  induction 1 as [ a p w k cw d self Hi | self ag obs acts self' sigs _ IH Hp ].
  - exact (init_well_formed _ _ _ _ _ _ _ Hi).
  - exact (predict_well_formed _ _ _ _ _ _ IH Hp).
Qed.

Lemma run_reachable steps : forall self out self',
  reachable self -> run self steps = Some (out, self') -> reachable self'.
Proof.
  induction steps as [ | [ag obs] steps IH ]; intros self out self' Hr; cbn [run].
  - now intros [= _ <-].
  - destruct (predict self ag obs) as [ [[acts s1] sigs] | ] eqn:Hp;
      [ | discriminate ].
    destruct (run s1 steps) as [ [out1 s2] | ] eqn:Hrun; [ | discriminate ].
    intros [= _ <-]. eapply IH; [ | exact Hrun ].
    eapply reachable_predict; eassumption.
Qed.

(** The histories after one call: every call appends the price of the
    configured pool and the liquidity of the first listed pool twice. *)
Lemma predict_histories self ag obs pool0 rest actions self' signals :
  pools obs = pool0 :: rest ->
  predict self ag obs = Some (actions, self', signals) ->
  price_hist self'
    = price_hist self ++ [obs_price self obs; obs_price self obs] /\
  liquidity self'
    = liquidity self ++ [obs_liquidity obs pool0; obs_liquidity obs pool0] /\
  price_window self'
    = deque_append (window self) (obs_price self obs)
        (deque_append (window self) (obs_price self obs) (price_window self)).
Proof.
  intros Hpools Hp. rewrite (predict_blocks _ _ _ _ _ Hpools) in Hp.
  injection Hp as _ <- _.
  destruct (block_fields self obs pool0)
    as (_ & Ep & Ew & _ & _ & _ & Epw & Eph & El).
  destruct (block_fields (block self obs pool0) obs pool0)
    as (_ & _ & _ & _ & _ & _ & Epw2 & Eph2 & El2).
  cbv zeta in *.
  assert (Eprice : obs_price (block self obs pool0) obs = obs_price self obs)
    by (unfold obs_price; now rewrite Ep).
  rewrite Eph2, El2, Epw2, Eph, El, Epw, Ew, Eprice, <- !app_assoc.
  repeat split.
Qed.

End Invariants.


(** ** The scenarios are what the code computes *)

Lemma backtest_policy_init :
  init "BB_Agent" usdc_weth 20 1.5%float 10 1 = Some backtest_policy.
Proof. reflexivity. Qed.

Lemma warm_policy_run :
  run backtest_policy (quiet_steps bb_agent)
  = Some (repeat [] 9, warm_policy).
Proof. vm_compute. reflexivity. Qed.

Lemma warm_policy_reachable : reachable warm_policy.
Proof.
  eapply run_reachable; [ | exact warm_policy_run ].
  eapply reachable_init. exact backtest_policy_init.
Qed.


Lemma zero_corr_after_two_reachable : reachable zero_corr_after_two.
Proof.
  eapply (run_reachable
            [(bb_agent, observation 1 1); (bb_agent, observation 3 0)]
            zero_corr_policy [[]; []]).
  - eapply reachable_init with (w := 4) (k := 2%float). reflexivity.
  - vm_compute. reflexivity.
Qed.


(** ** Auxiliary facts *)


(** The components of a result of [predict]. *)
Lemma some_triple_inv {A B C : Type} (a a' : A) (b b' : B) (c c' : C) :
  Some (a, b, c) = Some (a', b', c') -> a = a' /\ b = b' /\ c = c'.
Proof. intros E. inversion E. repeat split. Qed.

Section Decisions.
Context {F : Type} `{Arith F}.
Implicit Types (self : BollingerBandsPolicy F) (obs : UniswapV3Observation F).

(** The four outcomes of the two rules. *)
Lemma entries_cases self ag tokens (price0 lower upper correlation : F) :
  entries self ag tokens price0 lower upper correlation
  = (if long_signal self price0 lower correlation
     then [buy_intent self ag tokens] else [])
    ++ (if short_signal self price0 upper correlation
        then [sell_intent self ag tokens] else []).
Proof.
  unfold entries. cbv zeta.
  destruct (long_signal _ _ _ _), (short_signal _ _ _ _); reflexivity.
Qed.





End Decisions.








(** * The claims *)

(** C1 (the code at the failing input).  With window = 20 the tenth call of
    [predict] already returns a trade intent: each call appends the price
    twice, so the window of 20 is full after ten calls, not twenty.  The
    first nine calls return nothing; the tenth, with the price below the
    lower band and the correlation below -0.5, returns a buy of 30% of the
    agent's WETH. *)
Theorem tenth_call_trades :
  window backtest_policy = 20 /\
  option_map fst
    (run backtest_policy (quiet_steps bb_agent ++ [(bb_agent, drop)]))
  = Some (repeat [] 9
          ++ [[ {| trade_agent := "BB_Agent"; trade_pool := usdc_weth;
                   quantities := (0%Q, (3 # 10)%Q) |} ]]).
Proof. split; [ reflexivity | vm_compute; reflexivity ]. Qed.

(** C2 (what the code does).  One call of [predict] appends two elements to
    price_history and two to liquidity_history, and pushes the price into the
    bounded window twice: the second copy of the update block is not without
    effect. *)
Theorem predict_appends_twice {F : Type} `{Arith F}
    (self : BollingerBandsPolicy F) ag (obs : UniswapV3Observation F)
    pool0 rest actions self' signals :
  pools obs = pool0 :: rest ->
  predict self ag obs = Some (actions, self', signals) ->
  len (price_hist self') = len (price_hist self) + 2 /\
  len (liquidity self') = len (liquidity self) + 2 /\
  price_hist self'
    = price_hist self ++ [obs_price self obs; obs_price self obs] /\
  liquidity self'
    = liquidity self ++ [obs_liquidity obs pool0; obs_liquidity obs pool0] /\
  (len (price_window self) + 2 <= window self ->
   len (price_window self') = len (price_window self) + 2).
Proof.
  intros Hpools Hp.
  destruct (predict_histories _ _ _ _ _ _ _ _ Hpools Hp) as (Eph & El & Epw).
  rewrite Eph, El, Epw. unfold len at 1 3. rewrite !length_app. cbn [List.length].
  repeat split; try (unfold len; lia).
  intros Hroom. rewrite !len_deque_append.
  destruct (Z.ltb_spec (window self) (len (price_window self) + 1)); [ lia | ].
  destruct (Z.ltb_spec (window self) (len (price_window self) + 1 + 1)); lia.
Qed.

Lemma predict_appends_twice_witness :
  exists actions self' signals,
    predict backtest_policy bb_agent (observation 100 5)
    = Some (actions, self', signals) /\
    price_hist self' = [100%float; 100%float] /\
    liquidity self' = [5; 5] /\
    len (price_window self') = 2.
Proof.
  destruct (predict backtest_policy bb_agent (observation 100 5))
    as [ [[actions self'] signals] | ] eqn:Hp; [ | vm_compute in Hp; discriminate ].
  exists actions, self', signals.
  destruct (predict_appends_twice backtest_policy bb_agent (observation 100 5)
              usdc_weth [] actions self' signals eq_refl Hp)
    as (_ & _ & Eph & El & Epw).
  split; [ reflexivity | ]. split; [ exact Eph | ]. split; [ exact El | ].
  apply Epw. vm_compute. discriminate.
Defined.

(** C3.  Starting from a freshly constructed policy, after every completed
    call of [predict] the price history and the liquidity history have the
    same length. *)
Theorem histories_in_lock_step {F : Type} `{Arith F}
    (self : BollingerBandsPolicy F) :
  reachable self ->
  List.length (price_hist self) = List.length (liquidity self).
Proof.
  intros Hr. destruct (reachable_well_formed self Hr) as (_ & _ & Hl).
  unfold len in Hl. lia.
Qed.

Lemma histories_in_lock_step_witness :
  List.length (price_hist warm_policy) = List.length (liquidity warm_policy).
Proof. exact (histories_in_lock_step warm_policy warm_policy_reachable). Defined.

(** C4.  In every policy a run can reach, the bounded price window never
    holds more than [window] prices; once at least [window] prices have been
    appended it holds exactly [window]; and a full window stays full over
    every later call. *)
Theorem window_bound {F : Type} `{Arith F} (self : BollingerBandsPolicy F) :
  reachable self ->
  len (price_window self) <= window self /\
  (window self <= len (price_hist self) ->
   len (price_window self) = window self) /\
  (forall ag obs actions self' signals,
     predict self ag obs = Some (actions, self', signals) ->
     window self' = window self /\
     len (price_hist self) <= len (price_hist self') /\
     (len (price_window self) = window self ->
      len (price_window self') = window self')).
Proof.
  intros Hr. destruct (reachable_well_formed self Hr) as (Hw & Hpw & Hl).
  split; [ lia | split; [ lia | ] ].
  intros ag obs actions self' signals Hp.
  assert (Hr' : reachable self') by (eapply reachable_predict; eassumption).
  destruct (reachable_well_formed self' Hr') as (Hw' & Hpw' & _).
  destruct (pools obs) as [ | pool0 rest ] eqn:Hpools.
  - rewrite (predict_empty_pools _ _ _ Hpools) in Hp. discriminate.
  - destruct (predict_histories _ _ _ _ _ _ _ _ Hpools Hp) as (Eph & _ & _).
    assert (Ew : window self' = window self).
    { rewrite (predict_blocks _ _ _ _ _ Hpools) in Hp.
      apply some_triple_inv in Hp as (_ & Es & _). rewrite <- Es.
      destruct (block_fields self obs pool0) as (_ & _ & Ew & _).
      destruct (block_fields (block self obs pool0) obs pool0)
        as (_ & _ & Ew2 & _).
      cbv zeta in *. now rewrite Ew2. }
    assert (Hgrow : len (price_hist self') = len (price_hist self) + 2).
    { rewrite Eph. unfold len. rewrite length_app. cbn. lia. }
    repeat split; lia.
Qed.

Lemma window_bound_witness :
  len (price_window zero_corr_after_two) <= window zero_corr_after_two /\
  len (price_window zero_corr_after_two) = window zero_corr_after_two.
Proof.
  destruct (window_bound zero_corr_after_two zero_corr_after_two_reachable)
    as (Hle & Hfull & _).
  split; [ exact Hle | ]. apply Hfull. vm_compute. discriminate.
Defined.













(** C10.  The liquidity [predict] records is that of the first pool of the
    observation's pool list, while the price it records is that of the
    configured pool.  When the configured pool is the first one the recorded
    liquidity is its own; an observation that lists another pool first makes
    the policy record a liquidity that is not the configured pool's. *)
Theorem liquidity_of_first_pool {F : Type} `{Arith F} :
  (forall (self : BollingerBandsPolicy F) ag obs pool0 rest actions self'
          signals,
     pools obs = pool0 :: rest ->
     predict self ag obs = Some (actions, self', signals) ->
     let tokens := pool_tokens obs (pool self) in
     let recorded_price := price obs (fst tokens) (snd tokens) (pool self) in
     liquidity self'
       = liquidity self ++ [obs_liquidity obs pool0; obs_liquidity obs pool0] /\
     price_hist self' = price_hist self ++ [recorded_price; recorded_price] /\
     (pool self = pool0 ->
      liquidity self'
        = liquidity self ++ [obs_liquidity obs (pool self);
                             obs_liquidity obs (pool self)])) /\
  (exists (self : BollingerBandsPolicy F) ag obs actions self' signals,
     predict self ag obs = Some (actions, self', signals) /\
     hd_error (pools obs) <> Some (pool self) /\
     In (pool self) (pools obs) /\
     forall l, In l (skipn (List.length (liquidity self)) (liquidity self')) ->
               l <> obs_liquidity obs (pool self)).
Proof.
  split.
  - intros self ag obs pool0 rest actions self' signals Hpools Hp.
    destruct (predict_histories _ _ _ _ _ _ _ _ Hpools Hp) as (Eph & El & _).
    cbv zeta. repeat split; [ exact El | exact Eph | ].
    intros ->. exact El.
  - exists fresh, bb_agent, two_pools.
    destruct (predict fresh bb_agent two_pools) as [ [[actions self'] signals] | ]
      eqn:Hp.
    + exists actions, self', signals.
      destruct (predict_histories fresh bb_agent two_pools
                  "DAI/USDC-0.01"%string [usdc_weth] _ _ _ eq_refl Hp)
        as (_ & El & _).
      split; [ reflexivity | ]. split; [ discriminate | ].
      split; [ right; left; reflexivity | ].
      rewrite El. cbn. intros l [ <- | [ <- | [] ] ]; discriminate.
    + rewrite (predict_blocks fresh bb_agent two_pools
                 "DAI/USDC-0.01"%string [usdc_weth] eq_refl) in Hp.
      discriminate.
Qed.

(** X1.  The warm-up gate (lines 106-107): whenever the bounded window holds
    fewer than [window] prices at decision time, [predict] returns an empty
    list. *)
Theorem warm_up_gate {F : Type} `{Arith F}
    (self : BollingerBandsPolicy F) ag (obs : UniswapV3Observation F)
    pool0 rest :
  pools obs = pool0 :: rest ->
  len (price_window (block (block self obs pool0) obs pool0)) < window self ->
  exists signals,
    predict self ag obs
    = Some ([], block (block self obs pool0) obs pool0, signals).
Proof.
  intros Hpools Hlt. rewrite (predict_blocks _ _ _ _ _ Hpools).
  eexists. unfold decide. cbv zeta.
  destruct (block_fields self obs pool0) as (_ & _ & Ew & _).
  destruct (block_fields (block self obs pool0) obs pool0) as (_ & _ & Ew2 & _).
  cbv zeta in *. rewrite Ew2, Ew.
  destruct (Z.ltb_spec
              (len (price_window (block (block self obs pool0) obs pool0)))
              (window self)); [ reflexivity | lia ].
Qed.


Lemma warm_up_gate_witness :
  exists signals,
    predict backtest_policy bb_agent drop
    = Some ([], block (block backtest_policy drop usdc_weth) drop usdc_weth,
            signals).
Proof.
  apply (warm_up_gate backtest_policy bb_agent drop usdc_weth []).
  - reflexivity.
  - vm_compute. reflexivity.
Defined.




(** * Further properties of the code *)

Section Further.
Context {F : Type} `{Arith F}.
Implicit Types (self : BollingerBandsPolicy F) (obs : UniswapV3Observation F).

(** The configuration fields and what one call does to them. *)
Lemma predict_configuration self ag obs actions self' signals :
  predict self ag obs = Some (actions, self', signals) ->
  agent self' = agent self /\ pool self' = pool self /\
  window self' = window self /\
  std_dev_multiplier self' = std_dev_multiplier self /\
  corr_window self' = corr_window self /\
  direction self' = direction self.
Proof.
  intros Hp. destruct (pools obs) as [ | pool0 rest ] eqn:Hpools.
  - rewrite (predict_empty_pools _ _ _ Hpools) in Hp. discriminate.
  - rewrite (predict_blocks _ _ _ _ _ Hpools) in Hp.
    apply some_triple_inv in Hp as (_ & Es & _). rewrite <- Es. clear Es.
    destruct (block_fields self obs pool0)
      as (Ea & Ep & Ew & Ek & Ec & Ed & _).
    destruct (block_fields (block self obs pool0) obs pool0)
      as (Ea2 & Ep2 & Ew2 & Ek2 & Ec2 & Ed2 & _).
    cbv zeta in *.
    rewrite Ea2, Ep2, Ew2, Ek2, Ec2, Ed2. repeat split; assumption.
Qed.

(** The list [predict] returns, by cases on the gate and the two rules; the
    bands and the correlation are those of the second update block. *)
Lemma predict_actions self ag obs pool0 rest actions self' signals :
  pools obs = pool0 :: rest ->
  predict self ag obs = Some (actions, self', signals) ->
  let s1 := block self obs pool0 in
  let tokens := pool_tokens obs (pool self) in
  let price0 := price obs (fst tokens) (snd tokens) (pool self) in
  let bands := block_bands s1 obs pool0 in
  let correlation := block_correlation s1 obs pool0 in
  self' = block s1 obs pool0 /\
  actions
  = if len (price_window self') <? window self' then []
    else (if long_signal self' price0 (fst (fst bands)) correlation
          then [buy_intent self' ag tokens] else [])
         ++ (if short_signal self' price0 (snd bands) correlation
             then [sell_intent self' ag tokens] else []).
Proof.
  intros Hpools Hp s1 tokens price0 bands correlation.
  rewrite (predict_blocks _ _ _ _ _ Hpools) in Hp.
  apply some_triple_inv in Hp as (Ha & Es & _).
  destruct (block_fields self obs pool0) as (_ & Ep & _).
  cbv zeta in Ep. fold s1 in Ep, Ha, Es.
  split; [ now rewrite <- Es | ].
  rewrite <- Ha, <- Es. unfold decide. cbv zeta.
  fold bands. fold correlation.
  assert (Eprice : obs_price s1 obs = price0)
    by (unfold obs_price, price0, tokens; now rewrite Ep).
  assert (Etok : pool_tokens obs (pool s1) = tokens)
    by (unfold tokens; now rewrite Ep).
  rewrite Eprice, Etok, entries_cases. reflexivity.
Qed.



(** X4.  The correlation gate (lines 112 and 123): when the correlation the
    decision reads is not below -0.5 (a NaN is not), [predict] returns no
    intent, whatever the price and the bands. *)
Theorem correlation_gate self ag obs pool0 rest :
  pools obs = pool0 :: rest ->
  ltb (block_correlation (block self obs pool0) obs pool0) minus_half = false ->
  exists self' signals, predict self ag obs = Some ([], self', signals).
Proof.
  intros Hpools Hcorr.
  destruct (predict self ag obs) as [ [[actions self'] signals] | ] eqn:Hp.
  2: { rewrite (predict_blocks _ _ _ _ _ Hpools) in Hp. discriminate. }
  destruct (predict_actions _ _ _ _ _ _ _ _ Hpools Hp) as (_ & Ea).
  cbv zeta in Ea. unfold long_signal, short_signal in Ea.
  rewrite Hcorr, !andb_false_r in Ea.
  exists self', signals. rewrite Ea. now destruct (_ <? _).
Qed.


End Further.

(** ** The state over a run *)

Section Tail.
Context {A : Type}.

Lemma tl_skipn (k : nat) (m : list A) : tl (skipn k m) = skipn (S k) m.
Proof.
  revert m. induction k as [ | k IH ]; intros [ | a m ]; try reflexivity.
  exact (IH m).
Qed.

(** Appending to a deque that holds the last [w] elements of a list gives the
    last [w] elements of the extended list. *)
Lemma deque_append_lastn (w : Z) (x : A) (l : list A) :
  0 <= w ->
  deque_append w x (lastn (Z.to_nat w) l) = lastn (Z.to_nat w) (l ++ [x]).
Proof.
  intros Hw. unfold deque_append, lastn. cbv zeta.
  rewrite len_app_one. unfold len. rewrite length_skipn, length_app.
  cbn [List.length].
  destruct (Z.ltb_spec w
              (Z.of_nat (List.length l - (List.length l - Z.to_nat w)) + 1)).
  - replace (List.length l + 1 - Z.to_nat w)%nat
      with (S (List.length l - Z.to_nat w)) by lia.
    rewrite <- tl_skipn, skipn_app.
    replace (List.length l - Z.to_nat w - List.length l)%nat with 0%nat by lia.
    reflexivity.
  - replace (List.length l + 1 - Z.to_nat w)%nat with 0%nat by lia.
    replace (List.length l - Z.to_nat w)%nat with 0%nat by lia.
    reflexivity.
Qed.
End Tail.

Section Runs.
Context {F : Type} `{Arith F}.
Implicit Types (self : BollingerBandsPolicy F) (obs : UniswapV3Observation F).

(** With the window short of [window] once the call is over, the call
    returned nothing. *)
Lemma predict_short_window self ag obs actions self' signals :
  predict self ag obs = Some (actions, self', signals) ->
  len (price_window self') < window self' ->
  actions = [].
Proof.
  intros Hp Hshort. destruct (pools obs) as [ | pool0 rest ] eqn:Hpools.
  { rewrite (predict_empty_pools _ _ _ Hpools) in Hp. discriminate. }
  destruct (predict_actions _ _ _ _ _ _ _ _ Hpools Hp) as (_ & Ea).
  cbv zeta in Ea. rewrite Ea.
  now destruct (Z.ltb_spec (len (price_window self')) (window self')); [ | lia ].
Qed.

(** What one block adds to the three diagnostic logs. *)
Lemma block_logs self obs pool0 :
  exists ub lb ch,
    upper_band (block self obs pool0) = upper_band self ++ ub /\
    lower_band (block self obs pool0) = lower_band self ++ lb /\
    correlation_hist (block self obs pool0) = correlation_hist self ++ ch /\
    List.length ub = List.length lb /\
    (List.length ub <= 1)%nat /\ (List.length ch <= 1)%nat.
Proof.
  unfold block. set (u := update self obs pool0).
  assert (Eu : upper_band u = upper_band self /\
               lower_band u = lower_band self /\
               correlation_hist u = correlation_hist self)
    by (repeat split).
  destruct Eu as (Eub & Elb & Ech). rewrite <- Eub, <- Elb, <- Ech.
  clearbody u. clear Eub Elb Ech.
  destruct (calculate_correlation_frame (snd (calculate_bollinger_bands u)))
    as (_ & _ & _ & _ & _ & _ & _ & _ & _ & Eub & Elb).
  destruct (calculate_bollinger_bands_frame u)
    as (_ & _ & _ & _ & _ & _ & _ & _ & _ & Ech).
  cbv zeta in *. rewrite Eub, Elb. rewrite <- Ech.
  assert (Hb : exists ub lb,
             upper_band (snd (calculate_bollinger_bands u))
             = upper_band u ++ ub /\
             lower_band (snd (calculate_bollinger_bands u))
             = lower_band u ++ lb /\
             List.length ub = List.length lb /\ (List.length ub <= 1)%nat).
  { unfold calculate_bollinger_bands.
    destruct (len (price_window u) <? window u); cbn [snd].
    - exists [], []. rewrite !app_nil_r. repeat split. cbn. lia.
    - eexists [_], [_]. cbn [upper_band lower_band bands_append].
      repeat split. cbn. lia. }
  destruct Hb as (ub & lb & Hub & Hlb & Hlen & Hle).
  generalize dependent (snd (calculate_bollinger_bands u)). intros v Hub Hlb.
  exists ub, lb.
  assert (Hc : exists ch,
             correlation_hist (snd (calculate_correlation v))
             = correlation_hist v ++ ch /\ (List.length ch <= 1)%nat).
  { unfold calculate_correlation.
    destruct (_ && _); [ destruct (_ =? _)%nat | ]; cbn [snd].
    - eexists [_]. split; [ reflexivity | cbn; lia ].
    - exists []. rewrite app_nil_r. split; [ reflexivity | cbn; lia ].
    - exists []. rewrite app_nil_r. split; [ reflexivity | cbn; lia ]. }
  destruct Hc as (ch & Hch & Hchle). exists ch. repeat split; assumption.
Qed.

(** X7.  The bounded window is always the tail of the price history: its
    contents are the last [window] prices ever appended, in order. *)
Theorem window_is_history_tail self :
  reachable self ->
  price_window self = lastn (Z.to_nat (window self)) (price_hist self).
Proof.
  induction 1 as [ a p w k cw d self Hi | self ag obs acts self' sigs Hr IH Hp ].
  - unfold init in Hi. destruct (w <? 0); [ discriminate | ].
    injection Hi as <-. reflexivity.
  - destruct (reachable_well_formed self Hr) as (Hw & _).
    destruct (pools obs) as [ | pool0 rest ] eqn:Hpools.
    { rewrite (predict_empty_pools _ _ _ Hpools) in Hp. discriminate. }
    rewrite (predict_blocks _ _ _ _ _ Hpools) in Hp.
    apply some_triple_inv in Hp as (_ & Es & _). rewrite <- Es. clear Es.
    destruct (block_fields self obs pool0)
      as (_ & _ & Ew & _ & _ & _ & Epw & Eph & _).
    destruct (block_fields (block self obs pool0) obs pool0)
      as (_ & _ & Ew2 & _ & _ & _ & Epw2 & Eph2 & _).
    cbv zeta in *.
    rewrite Epw2, Eph2, Ew2, Epw, Eph, Ew, IH.
    rewrite !deque_append_lastn by exact Hw. reflexivity.
Qed.

(** X8.  The upper-band and lower-band logs have the same length in every
    policy a run can reach, and a call only ever appends to the three
    diagnostic logs: at most two entries to each, as many upper as lower
    bands. *)
Theorem diagnostic_logs self :
  reachable self ->
  List.length (upper_band self) = List.length (lower_band self) /\
  forall ag obs actions self' signals,
    predict self ag obs = Some (actions, self', signals) ->
    exists ub lb ch,
      upper_band self' = upper_band self ++ ub /\
      lower_band self' = lower_band self ++ lb /\
      correlation_hist self' = correlation_hist self ++ ch /\
      List.length ub = List.length lb /\
      (List.length ub <= 2)%nat /\ (List.length ch <= 2)%nat.
Proof.
  assert (Hstep : forall self ag obs actions self' signals,
             predict self ag obs = Some (actions, self', signals) ->
             exists ub lb ch,
               upper_band self' = upper_band self ++ ub /\
               lower_band self' = lower_band self ++ lb /\
               correlation_hist self' = correlation_hist self ++ ch /\
               List.length ub = List.length lb /\
               (List.length ub <= 2)%nat /\ (List.length ch <= 2)%nat).
  { clear self. intros self ag obs actions self' signals Hp.
    destruct (pools obs) as [ | pool0 rest ] eqn:Hpools.
    { rewrite (predict_empty_pools _ _ _ Hpools) in Hp. discriminate. }
    rewrite (predict_blocks _ _ _ _ _ Hpools) in Hp.
    apply some_triple_inv in Hp as (_ & Es & _). rewrite <- Es. clear Es.
    destruct (block_logs self obs pool0)
      as (ub & lb & ch & Eub & Elb & Ech & Hlen & Hub & Hch).
    destruct (block_logs (block self obs pool0) obs pool0)
      as (ub2 & lb2 & ch2 & Eub2 & Elb2 & Ech2 & Hlen2 & Hub2 & Hch2).
    exists (ub ++ ub2), (lb ++ lb2), (ch ++ ch2).
    rewrite Eub2, Elb2, Ech2, Eub, Elb, Ech, !length_app, <- !app_assoc.
    repeat split; lia. }
  intros Hr. split; [ | apply Hstep ].
  induction Hr as [ a p w k cw d self Hi | self ag obs acts self' sigs Hr IH Hp ].
  - unfold init in Hi. destruct (w <? 0); [ discriminate | ].
    injection Hi as <-. reflexivity.
  - destruct (Hstep _ _ _ _ _ _ Hp) as (ub & lb & ch & Eub & Elb & _ & Hlen & _).
    rewrite Eub, Elb, !length_app. lia.
Qed.

(** X9.  A run never changes the configuration, and returns one list of intents
    per step. *)
Theorem run_keeps_configuration steps : forall self outs self',
  run self steps = Some (outs, self') ->
  (agent self' = agent self /\ pool self' = pool self /\
   window self' = window self /\
   std_dev_multiplier self' = std_dev_multiplier self /\
   corr_window self' = corr_window self /\
   direction self' = direction self) /\
  List.length outs = List.length steps.
Proof.
  induction steps as [ | [ag obs] steps IH ]; intros self outs self'; cbn [run].
  - intros [= <- <-]. repeat split.
  - destruct (predict self ag obs) as [ [[acts s1] sigs] | ] eqn:Hp;
      [ | discriminate ].
    destruct (run s1 steps) as [ [out1 s2] | ] eqn:Hrun; [ | discriminate ].
    intros [= <- <-].
    destruct (IH _ _ _ Hrun) as ((Ea & Ep & Ew & Ek & Ec & Ed) & Hlen).
    destruct (predict_configuration _ _ _ _ _ _ Hp)
      as (Ea1 & Ep1 & Ew1 & Ek1 & Ec1 & Ed1).
    rewrite Ea, Ep, Ew, Ek, Ec, Ed. cbn [List.length].
    repeat split; try assumption. now rewrite Hlen.
Qed.

(** Over a run from any reachable policy the history grows by two per step,
    and a step returns nothing while the history has fewer than [window]
    prices once it is over. *)
Lemma run_warm_up steps : forall self outs self',
  reachable self ->
  run self steps = Some (outs, self') ->
  len (price_hist self') = len (price_hist self) + 2 * len steps /\
  forall i actions,
    nth_error outs i = Some actions ->
    len (price_hist self) + 2 * (Z.of_nat i + 1) < window self ->
    actions = [].
Proof.
  induction steps as [ | [ag obs] steps IH ]; intros self outs self' Hr;
    cbn [run].
  - intros [= <- <-]. split; [ unfold len; cbn; lia | ].
    intros [ | i ] actions Hn; discriminate.
  - destruct (predict self ag obs) as [ [[acts s1] sigs] | ] eqn:Hp;
      [ | discriminate ].
    destruct (run s1 steps) as [ [out1 s2] | ] eqn:Hrun; [ | discriminate ].
    intros [= <- <-].
    assert (Hr1 : reachable s1) by (eapply reachable_predict; eassumption).
    destruct (predict_configuration _ _ _ _ _ _ Hp) as (_ & _ & Ew & _).
    assert (Hgrow : len (price_hist s1) = len (price_hist self) + 2).
    { destruct (pools obs) as [ | pool0 rest ] eqn:Hpools.
      { rewrite (predict_empty_pools _ _ _ Hpools) in Hp. discriminate. }
      destruct (predict_histories _ _ _ _ _ _ _ _ Hpools Hp) as (Eph & _).
      rewrite Eph. unfold len. rewrite length_app. cbn. lia. }
    destruct (IH s1 out1 s2 Hr1 Hrun) as (Hlen & Hout).
    split.
    { rewrite Hlen, Hgrow. unfold len. cbn [List.length]. lia. }
    intros [ | i ] actions Hn Hlt; cbn [nth_error] in Hn.
    + injection Hn as <-.
      apply (predict_short_window _ _ _ _ _ _ Hp).
      destruct (reachable_well_formed s1 Hr1) as (_ & Hpw & _). lia.
    + apply (Hout i actions Hn). lia.
Qed.

(** With a long-only direction a call returns at most one intent, and its
    token0 leg is zero. *)
Lemma long_only_actions self ag obs actions self' signals :
  0 < direction self ->
  predict self ag obs = Some (actions, self', signals) ->
  (List.length actions <= 1)%nat /\
  forall t, In t actions -> fst (quantities t) = Decimal_0.
Proof.
  intros Hdir Hp. destruct (pools obs) as [ | pool0 rest ] eqn:Hpools.
  { rewrite (predict_empty_pools _ _ _ Hpools) in Hp. discriminate. }
  destruct (predict_actions _ _ _ _ _ _ _ _ Hpools Hp) as (_ & Ea).
  destruct (predict_configuration _ _ _ _ _ _ Hp) as (_ & _ & _ & _ & _ & Ed).
  cbv zeta in Ea. unfold short_signal in Ea. rewrite Ed in Ea.
  destruct (Z.leb_spec (direction self) 0); [ lia | ].
  cbn [andb] in Ea. rewrite app_nil_r in Ea. rewrite Ea.
  destruct (_ <? _); [ split; [ cbn; lia | intros t [] ] | ].
  destruct (long_signal _ _ _ _); [ | split; [ cbn; lia | intros t [] ] ].
  split; [ cbn; lia | ]. intros t [ <- | [] ]. reflexivity.
Qed.

(** X10.  How long the warm-up lasts: from a freshly constructed policy, [n] calls
    leave [2 n] prices in the history, and call number [i + 1] returns
    nothing as long as [2 (i + 1)] is below [window]. *)
Theorem warm_up_length a p w k cw d self0 steps outs self' :
  init a p w k cw d = Some self0 ->
  run self0 steps = Some (outs, self') ->
  len (price_hist self') = 2 * len steps /\
  forall i actions,
    nth_error outs i = Some actions ->
    2 * (Z.of_nat i + 1) < w ->
    actions = [].
Proof.
  intros Hi Hrun.
  assert (Hr0 : reachable self0) by (eapply reachable_init; exact Hi).
  assert (Hw0 : window self0 = w /\ len (price_hist self0) = 0).
  { unfold init in Hi. destruct (w <? 0); [ discriminate | ].
    injection Hi as <-. split; reflexivity. }
  destruct Hw0 as (Hw0 & Hph0).
  destruct (run_warm_up steps self0 outs self' Hr0 Hrun) as (Hlen & Hout).
  rewrite Hph0, Hw0 in *. split; [ lia | ].
  intros i actions Hn Hlt. apply (Hout i actions Hn). lia.
Qed.

(** X11.  The two statistics are repeatable: neither method changes what the other
    or a second call of itself returns (only the diagnostic logs grow). *)
Theorem statistics_repeatable self :
  fst (calculate_bollinger_bands (snd (calculate_bollinger_bands self)))
  = fst (calculate_bollinger_bands self) /\
  fst (calculate_correlation (snd (calculate_correlation self)))
  = fst (calculate_correlation self) /\
  fst (calculate_correlation (snd (calculate_bollinger_bands self)))
  = fst (calculate_correlation self) /\
  fst (calculate_bollinger_bands (snd (calculate_correlation self)))
  = fst (calculate_bollinger_bands self).
Proof.
  assert (Hb : forall a b : BollingerBandsPolicy F,
             price_window a = price_window b -> window a = window b ->
             std_dev_multiplier a = std_dev_multiplier b ->
             fst (calculate_bollinger_bands a)
             = fst (calculate_bollinger_bands b)).
  { intros a b Epw Ew Ek. unfold calculate_bollinger_bands, calculate_sma.
    rewrite Epw, Ew, Ek. now destruct (_ <? _). }
  assert (Hc : forall a b : BollingerBandsPolicy F,
             price_hist a = price_hist b -> liquidity a = liquidity b ->
             corr_window a = corr_window b ->
             fst (calculate_correlation a) = fst (calculate_correlation b)).
  { intros a b Eph El Ec. unfold calculate_correlation.
    rewrite Eph, El, Ec.
    now destruct (_ && _); [ destruct (_ =? _)%nat | ]. }
  destruct (calculate_bollinger_bands_frame self)
    as (_ & _ & Ew & Ek & Ec & _ & Epw & Eph & El & _).
  destruct (calculate_correlation_frame self)
    as (_ & _ & Ew' & Ek' & Ec' & _ & Epw' & Eph' & El' & _).
  cbv zeta in *. repeat split; [ apply Hb | apply Hc | apply Hc | apply Hb ];
    assumption.
Qed.
End Runs.

(** ** The moving average and a flat market, over the real numbers *)









(** ** The direction filter over a run *)

Section Direction.
Context {F : Type} `{Arith F}.
Implicit Types (self : BollingerBandsPolicy F) (obs : UniswapV3Observation F).

(** With a short-only direction a call returns at most one intent, and its
    token1 leg is zero. *)
Lemma short_only_actions self ag obs actions self' signals :
  direction self < 0 ->
  predict self ag obs = Some (actions, self', signals) ->
  (List.length actions <= 1)%nat /\
  forall t, In t actions -> snd (quantities t) = Decimal_0.
Proof.
  intros Hdir Hp. destruct (pools obs) as [ | pool0 rest ] eqn:Hpools.
  { rewrite (predict_empty_pools _ _ _ Hpools) in Hp. discriminate. }
  destruct (predict_actions _ _ _ _ _ _ _ _ Hpools Hp) as (_ & Ea).
  destruct (predict_configuration _ _ _ _ _ _ Hp) as (_ & _ & _ & _ & _ & Ed).
  cbv zeta in Ea. unfold long_signal in Ea. rewrite Ed in Ea.
  destruct (Z.leb_spec 0 (direction self)); [ lia | ].
  cbn [andb app] in Ea. rewrite Ea.
  destruct (_ <? _); [ split; [ cbn; lia | intros t [] ] | ].
  destruct (short_signal _ _ _ _); [ | split; [ cbn; lia | intros t [] ] ].
  split; [ cbn; lia | ]. intros t [ <- | [] ]. reflexivity.
Qed.

(** X14.  The direction restricts every step of a run, since no step changes it:
    a long-only policy (direction > 0) returns at most one intent per step
    and never one with a nonzero token0 leg (a sell); a short-only policy
    (direction < 0) at most one per step and never one with a nonzero token1
    leg (a buy). *)
Theorem direction_filter_over_run steps : forall self outs self',
  run self steps = Some (outs, self') ->
  forall i actions,
    nth_error outs i = Some actions ->
    (0 < direction self ->
     (List.length actions <= 1)%nat /\
     forall t, In t actions -> fst (quantities t) = Decimal_0) /\
    (direction self < 0 ->
     (List.length actions <= 1)%nat /\
     forall t, In t actions -> snd (quantities t) = Decimal_0).
Proof.
  induction steps as [ | [ag obs] steps IH ]; intros self outs self'; cbn [run].
  - intros [= <- <-] [ | i ] actions Hn; discriminate.
  - destruct (predict self ag obs) as [ [[acts s1] sigs] | ] eqn:Hp;
      [ | discriminate ].
    destruct (run s1 steps) as [ [out1 s2] | ] eqn:Hrun; [ | discriminate ].
    intros [= <- <-] [ | i ] actions Hn; cbn [nth_error] in Hn.
    + injection Hn as <-. split; intros Hdir.
      * exact (long_only_actions _ _ _ _ _ _ Hdir Hp).
      * exact (short_only_actions _ _ _ _ _ _ Hdir Hp).
    + destruct (predict_configuration _ _ _ _ _ _ Hp)
        as (_ & _ & _ & _ & _ & Ed).
      rewrite <- Ed. exact (IH s1 out1 s2 Hrun i actions Hn).
Qed.
End Direction.

(** ** The further properties at work *)


Lemma correlation_gate_witness :
  exists self' signals,
    predict warm_policy bb_agent (observation 100 5)
    = Some ([], self', signals).
Proof.
  apply (correlation_gate warm_policy bb_agent (observation 100 5)
           usdc_weth []).
  - reflexivity.
  - vm_compute. reflexivity.
Defined.



Lemma window_is_history_tail_witness :
  price_window zero_corr_after_two
  = lastn 4 (price_hist zero_corr_after_two).
Proof.
  exact (window_is_history_tail zero_corr_after_two
           zero_corr_after_two_reachable).
Defined.

Lemma diagnostic_logs_witness :
  List.length (upper_band zero_corr_after_two)
  = List.length (lower_band zero_corr_after_two).
Proof.
  exact (proj1 (diagnostic_logs zero_corr_after_two
                  zero_corr_after_two_reachable)).
Defined.

Lemma run_keeps_configuration_witness :
  window warm_policy = window backtest_policy /\
  direction warm_policy = direction backtest_policy.
Proof.
  destruct (run_keeps_configuration _ _ _ _ warm_policy_run)
    as ((_ & _ & Ew & _ & _ & Ed) & _).
  split; assumption.
Defined.

Lemma warm_up_length_witness :
  len (price_hist warm_policy) = 2 * len (quiet_steps bb_agent).
Proof.
  exact (proj1 (warm_up_length _ _ _ _ _ _ _ _ _ _
                  backtest_policy_init warm_policy_run)).
Defined.



Lemma direction_filter_over_run_witness :
  exists outs self' actions,
    run backtest_policy (quiet_steps bb_agent ++ [(bb_agent, drop)])
    = Some (outs, self') /\
    nth_error outs 9 = Some actions /\
    (List.length actions <= 1)%nat /\
    forall t, In t actions -> fst (quantities t) = Decimal_0.
Proof.
  destruct (run backtest_policy (quiet_steps bb_agent ++ [(bb_agent, drop)]))
    as [ [outs self'] | ] eqn:Hrun; [ | vm_compute in Hrun; discriminate ].
  destruct (nth_error outs 9) as [ actions | ] eqn:Hn.
  2: { vm_compute in Hrun. injection Hrun as <- _. discriminate Hn. }
  exists outs, self', actions. split; [ reflexivity | ].
  split; [ exact Hn | ].
  apply (proj1 (direction_filter_over_run _ _ _ _ Hrun 9%nat actions Hn)).
  reflexivity.
Defined.
